(** * COCOMO Intermediate estimation tool (src/app.py): a shallow embedding

    The Flask application has two parts that matter here:
    - [calculate_cocomo], the estimation engine, with its constant tables
      [COCOMO_PARAMS] and [COST_DRIVERS_DATA];
    - [index], the request handler that parses the form, guards the
      magnitudes, calls the engine and renders the page.

    Modelling choices.
    - A Python [float] is idealised as a real number ([R]); overflow,
      infinities and NaN are not represented.  Python's [x ** y] on floats
      is [Rpower] on a positive base, with Python's cases for a zero base
      and for a negative base (a non-integral exponent gives a [complex]).
    - A [complex] value is kept only through its modulus: that is exactly
      what decides whether it is zero (so whether a division by it raises),
      and [round] on a complex raises [TypeError] whatever its value.
    - Python exceptions are an error monad [py]; [try]/[except] is a match
      on the raised exception's kind.
    - [round(x, n)] is round-half-even of [x * 10^n], divided by [10^n]. *)

From Stdlib Require Import Reals Lra Lia ZArith String Ascii List Bool Permutation.
Import ListNotations.
Open Scope R_scope.
Open Scope string_scope.

(** ** Python exceptions and the error monad *)

Inductive exc_kind := ValueError | TypeError | KeyError | ZeroDivisionError.

Record exc := Exc { exc_kind_of : exc_kind; exc_msg : string }.

Inductive py (A : Type) : Type :=
| PyOk (a : A)
| PyRaise (e : exc).
Arguments PyOk {A} a.
Arguments PyRaise {A} e.

Definition py_bind {A B} (m : py A) (k : A -> py B) : py B :=
  match m with
  | PyOk a => k a
  | PyRaise e => PyRaise e
  end.

Notation "x <- m ;; k" := (py_bind m (fun x => k))
  (at level 61, m at next level, right associativity).

Definition raise {A} (k : exc_kind) (msg : string) : py A := PyRaise (Exc k msg).

(** ** Python numbers: floats and complex numbers *)

Inductive num := NFloat (r : R) | NComplex (m : R).

(** Absolute value of a float, modulus of a complex. *)
Definition modulus (x : num) : R :=
  match x with NFloat r => Rabs r | NComplex m => m end.

(** [floor], through the Archimedean [up] of the Standard Library. *)
Definition py_floor (r : R) : Z := (up r - 1)%Z.

(** [x * y]: a complex operand makes the product complex. *)
Definition num_mul (x y : num) : num :=
  match x, y with
  | NFloat a, NFloat b => NFloat (a * b)
  | _, _ => NComplex (modulus x * modulus y)
  end.

(** [x / y]: raises [ZeroDivisionError] on a zero divisor. *)
Definition num_div (x y : num) : py num :=
  if Req_dec_T (modulus y) 0 then
    match y with
    | NFloat _ => raise ZeroDivisionError "float division by zero"
    | NComplex _ => raise ZeroDivisionError "complex division by zero"
    end
  else
    match x, y with
    | NFloat a, NFloat b => PyOk (NFloat (a / b))
    | _, _ => PyOk (NComplex (modulus x / modulus y))
    end.

(** [x ** y] with a float exponent [y]. *)
Definition num_pow (x : num) (y : R) : py num :=
  match x with
  | NFloat a =>
      if Rlt_dec 0 a then PyOk (NFloat (Rpower a y))
      else if Req_dec_T a 0 then
        if Rlt_dec 0 y then PyOk (NFloat 0)
        else if Req_dec_T y 0 then PyOk (NFloat 1)
        else raise ZeroDivisionError "0.0 cannot be raised to a negative power"
      else if Req_dec_T y (IZR (py_floor y)) then
        PyOk (NFloat ((if Z.even (py_floor y) then 1 else -1) * Rpower (- a) y))
      else PyOk (NComplex (Rpower (- a) y))
  | NComplex m =>
      if Req_dec_T y 0 then PyOk (NComplex 1)
      else if Req_dec_T m 0 then
        if Rlt_dec 0 y then PyOk (NComplex 0)
        else raise ZeroDivisionError "0.0 to a negative or complex power"
      else PyOk (NComplex (Rpower m y))
  end.

(** Round half to even, to an integer. *)
Definition round_half_even (r : R) : Z :=
  let k := py_floor r in
  let f := r - IZR k in
  if Rlt_dec f (1 / 2) then k
  else if Rlt_dec (1 / 2) f then (k + 1)%Z
  else if Z.even k then k else (k + 1)%Z.

(** [round(r, n)] on a float. *)
Definition round_to (r : R) (n : nat) : R := IZR (round_half_even (r * 10 ^ n)) / 10 ^ n.

(** [round(x, n)]: a complex has no [__round__]. *)
Definition py_round (x : num) (n : nat) : py R :=
  match x with
  | NFloat r => PyOk (round_to r n)
  | NComplex _ => raise TypeError "type complex doesn't define __round__ method"
  end.

(** ** Python values met by [float(...)] *)

Inductive pyval := VNone | VStr (s : string) | VFloat (r : R).

(** ASCII [str.upper]/[str.lower] of one character, and [str.capitalize]. *)
Definition ascii_upper (c : ascii) : ascii :=
  let n := nat_of_ascii c in
  if (97 <=? n)%nat && (n <=? 122)%nat then ascii_of_nat (n - 32) else c.

Definition ascii_lower (c : ascii) : ascii :=
  let n := nat_of_ascii c in
  if (65 <=? n)%nat && (n <=? 90)%nat then ascii_of_nat (n + 32) else c.

Fixpoint str_lower (s : string) : string :=
  match s with
  | EmptyString => EmptyString
  | String c s' => String (ascii_lower c) (str_lower s')
  end.

Definition capitalize (s : string) : string :=
  match s with
  | EmptyString => EmptyString
  | String c s' => String (ascii_upper c) (str_lower s')
  end.

(** A dict with string keys, in insertion order; [dict_get] is [d.get(k)]. *)
Fixpoint dict_get {V} (d : list (string * V)) (k : string) : option V :=
  match d with
  | [] => None
  | (k', v) :: d' => if String.eqb k k' then Some v else dict_get d' k
  end.

(** ** Constant tables *)

(** [COCOMO_PARAMS]: [a, b, c, d] for [E = a * KLOC^b] and [D = c * E^d]. *)
Definition COCOMO_PARAMS : list (string * (R * R * R * R)) :=
  [("organic", (2.4, 1.05, 2.5, 0.38));
   ("semidetached", (3.0, 1.12, 2.5, 0.35));
   ("embedded", (3.6, 1.20, 2.5, 0.32))].

Record cost_driver := CostDriver {
  cd_name : string;
  cd_levels : list (string * R);
  cd_default : R }.

(** [COST_DRIVERS_DATA] *)
Definition COST_DRIVERS_DATA : list (string * cost_driver) :=
  [("RELY", CostDriver "Required Software Reliability"
      [("VL", 0.75); ("L", 0.88); ("N", 1.00); ("H", 1.15); ("VH", 1.40)] 1.00);
   ("DATA", CostDriver "Database Size/Program Size"
      [("L", 0.94); ("N", 1.00); ("H", 1.08); ("VH", 1.16)] 1.00);
   ("CPLX", CostDriver "Product Complexity"
      [("VL", 0.70); ("L", 0.85); ("N", 1.00); ("H", 1.15); ("VH", 1.30); ("EH", 1.65)] 1.00);
   ("TOOL", CostDriver "Use of Software Tools"
      [("VL", 1.24); ("L", 1.10); ("N", 1.00); ("H", 0.91); ("VH", 0.82)] 1.00);
   ("VIRT", CostDriver "Virtual Machine Volatility"
      [("L", 0.87); ("N", 1.00); ("H", 1.15); ("VH", 1.30)] 1.00)].

(** A driver selection the catalog defines: the key is a driver of
    [COST_DRIVERS_DATA] and the value one of its level multipliers. *)
Definition catalog_level (key : string) (v : R) : Prop :=
  exists d, dict_get COST_DRIVERS_DATA key = Some d /\
            exists lvl, In (lvl, v) (cd_levels d).

(** The dict returned by the engine. *)
Record cocomo_results := CocomoResults {
  effort_pm : R;
  duration_months : R;
  avg_people : R;
  total_cost : R;
  eaf : R;
  kloc : R;
  mode : string }.

Section Engine.

(** Python's [float()] on a [str]: [None] where it raises [ValueError]. *)
Variable float_of_str : string -> option R.

(** [float(value)] *)
Definition py_float (v : pyval) : py R :=
  match v with
  | VNone => raise TypeError "float() argument must be a string or a real number, not 'NoneType'"
  | VStr s =>
      match float_of_str s with
      | Some r => PyOk r
      | None => raise ValueError "could not convert string to float"
      end
  | VFloat r => PyOk r
  end.

(** [for value in drivers.values(): eaf *= float(value)] *)
Fixpoint eaf_loop (eaf0 : R) (drivers : list (string * pyval)) : py R :=
  match drivers with
  | [] => PyOk eaf0
  | (_, value) :: rest => f <- py_float value ;; eaf_loop (eaf0 * f) rest
  end.

(** [COCOMO_PARAMS[mode]]; [None] is the [KeyError] (also for [mode = None]). *)
Definition mode_params (m : option string) : option (R * R * R * R) :=
  match m with
  | Some s => dict_get COCOMO_PARAMS s
  | None => None
  end.

(** [calculate_cocomo(kloc, mode, drivers, salary)], returning the pair
    [(results, error)]; [kloc] and [salary] are the floats the handler
    passes, on which [float(...)] is the identity. *)
Definition calculate_cocomo (kloc : R) (mode : option string)
    (drivers : list (string * pyval)) (salary : R)
    : py (option cocomo_results * option string) :=
  eaf <- eaf_loop 1.0 drivers ;;
  match mode_params mode with
  | None => PyOk (None, Some "Invalid project mode selected.")
  | Some (a, b_exp, c, d_exp) =>
      p <- num_pow (NFloat kloc) b_exp ;;
      let effort_pm := num_mul (num_mul (NFloat a) p) (NFloat eaf) in
      q <- num_pow effort_pm d_exp ;;
      let duration_months := num_mul (NFloat c) q in
      avg_people <- num_div effort_pm duration_months ;;
      let total_cost := num_mul effort_pm (NFloat salary) in
      r_effort <- py_round effort_pm 2 ;;
      r_duration <- py_round duration_months 2 ;;
      r_people <- py_round avg_people 2 ;;
      r_cost <- py_round total_cost 0 ;;
      r_eaf <- py_round (NFloat eaf) 3 ;;
      PyOk (Some (CocomoResults r_effort r_duration r_people r_cost r_eaf kloc
                    (capitalize (match mode with Some s => s | None => EmptyString end))),
            None)
  end.

(** ** The request handler [index] *)

Inductive method := GET | POST.

Record request := Request {
  req_method : method;
  req_form : list (string * string) }.

(** [request.form.get(key)]: a missing field is [None]. *)
Definition form_get (rq : request) (key : string) : pyval :=
  match dict_get (req_form rq) key with
  | Some s => VStr s
  | None => VNone
  end.

(** The body of the [try] block for a POST. *)
Definition index_try (rq : request) : py (option cocomo_results * option string) :=
  kloc <- py_float (form_get rq "kloc") ;;
  salary <- py_float (form_get rq "salary") ;;
  let mode := match form_get rq "mode" with VStr s => Some s | _ => None end in
  let drivers := map (fun '(key, _) => (key, form_get rq key)) COST_DRIVERS_DATA in
  if Rle_dec kloc 0 then PyOk (None, Some "KLOC and Salary must be positive numbers.")
  else if Rle_dec salary 0 then PyOk (None, Some "KLOC and Salary must be positive numbers.")
  else calculate_cocomo kloc mode drivers salary.

(** [results] and [error] once the [try]/[except] has run: the first clause
    catches [ValueError] and [TypeError], the second every other [Exception]. *)
Definition index_state (rq : request) : option cocomo_results * option string :=
  match req_method rq with
  | GET => (None, None)
  | POST =>
      match index_try rq with
      | PyOk re => re
      | PyRaise (Exc ValueError _) | PyRaise (Exc TypeError _) =>
          (None, Some "Please ensure all numerical fields are filled correctly.")
      | PyRaise (Exc _ msg) => (None, Some ("A server error occurred: " ++ msg)%string)
      end
  end.

Record page := Page {
  page_results : option cocomo_results;
  page_error : option string }.

(** [render_template_string(HTML_TEMPLATE, ...)]: when [results] is set,
    the template's bar computes
    [total = results.effort_pm + results.duration_months] and divides both
    fields by [total]. *)
Definition render_template (results : option cocomo_results) (error : option string)
    : py page :=
  match results with
  | Some r =>
      let total := effort_pm r + duration_months r in
      _ <- num_div (NFloat (effort_pm r)) (NFloat total) ;;
      _ <- num_div (NFloat (duration_months r)) (NFloat total) ;;
      PyOk (Page results error)
  | None => PyOk (Page results error)
  end.

(** [index()]: a raised exception is what Flask turns into a 500 error. *)
Definition index (rq : request) : py page :=
  let '(results, error) := index_state rq in
  render_template results error.

End Engine.

(** ** A concrete [float()] on strings

    [decimal_float] reads an optional [-] followed by digits with at most one
    [.]; it is the part of Python's [float(str)] the form's fields use.  The
    definitions above take the conversion as a parameter, so the theorems
    below hold for every conversion; [decimal_float] is the one the concrete
    requests use. *)
Fixpoint parse_decimal (s : string) (seen_dot : bool) (acc : Z) (nfrac ndig : nat)
    : option (Z * nat) :=
  match s with
  | EmptyString => if (ndig =? 0)%nat then None else Some (acc, nfrac)
  | String c s' =>
      if Ascii.eqb c "."%char then
        if seen_dot then None else parse_decimal s' true acc nfrac ndig
      else
        let n := nat_of_ascii c in
        if (48 <=? n)%nat && (n <=? 57)%nat then
          parse_decimal s' seen_dot (acc * 10 + Z.of_nat (n - 48))%Z
            (if seen_dot then S nfrac else nfrac) (S ndig)
        else None
  end.

Definition decimal_float (s : string) : option R :=
  let '(neg, body) :=
    match s with
    | String c s' => if Ascii.eqb c "-"%char then (true, s') else (false, s)
    | EmptyString => (false, s)
    end in
  match parse_decimal body false 0 0 0 with
  | Some (z, k) => Some ((if neg then -1 else 1) * IZR z / 10 ^ k)
  | None => None
  end.

(** * Lemmas on the numeric primitives *)

Module Num.


Lemma py_floor_unique (r : R) (k : Z) :
  IZR k <= r < IZR k + 1 -> py_floor r = k.
Proof.
  intros [H1 H2]. unfold py_floor.
  assert (Hup : (k + 1)%Z = up r).
  { apply tech_up; rewrite plus_IZR; lra. }
  lia.
Qed.


(** Rounding to the nearest integer when it is strictly nearest. *)
Lemma round_half_even_near (r : R) (k : Z) :
  IZR k - 1 / 2 < r < IZR k + 1 / 2 -> round_half_even r = k.
Proof.
  intros [H1 H2]. unfold round_half_even.
  destruct (Rle_dec (IZR k) r) as [Hle | Hgt].
  - rewrite (py_floor_unique r k) by lra.
    destruct (Rlt_dec (r - IZR k) (1 / 2)); [reflexivity | lra].
  - rewrite (py_floor_unique r (k - 1)) by (rewrite minus_IZR; lra).
    rewrite minus_IZR.
    destruct (Rlt_dec (r - (IZR k - 1)) (1 / 2)); [lra |].
    destruct (Rlt_dec (1 / 2) (r - (IZR k - 1))); [lia | lra].
Qed.




End Num.

(** * Evaluating the engine *)

Module Eval.

Lemma num_pow_pos (x y : R) : 0 < x -> num_pow (NFloat x) y = PyOk (NFloat (Rpower x y)).
Proof. intros H. unfold num_pow. destruct (Rlt_dec 0 x); [reflexivity | lra]. Qed.


Lemma num_div_float (x y : R) : y <> 0 -> num_div (NFloat x) (NFloat y) = PyOk (NFloat (x / y)).
Proof.
  intros H. unfold num_div, modulus.
  destruct (Req_dec_T (Rabs y) 0) as [E | E]; [| reflexivity].
  exfalso. apply H. destruct (Rcase_abs y); unfold Rabs in E;
  destruct (Rcase_abs y); lra.
Qed.

Lemma num_div_by_zero (x : R) :
  num_div (NFloat x) (NFloat 0) = raise ZeroDivisionError "float division by zero".
Proof.
  unfold num_div, modulus. rewrite Rabs_R0.
  destruct (Req_dec_T 0 0); [reflexivity | congruence].
Qed.

Lemma Rpower_pos (x y : R) : 0 < Rpower x y.
Proof. unfold Rpower. apply exp_pos. Qed.

Lemma eaf_loop_app (fs : string -> option R) (ds1 ds2 : list (string * pyval)) (acc : R) :
  eaf_loop fs acc (ds1 ++ ds2) =
  py_bind (eaf_loop fs acc ds1) (fun p1 => eaf_loop fs p1 ds2).
Proof.
  revert acc. induction ds1 as [| [k v] rest IH]; intros acc; simpl; [reflexivity |].
  destruct (py_float fs v); simpl; [apply IH | reflexivity].
Qed.

(** The engine on a known mode, a positive size and a positive EAF. *)
Lemma calculate_cocomo_ok (fs : string -> option R) (kloc0 : R) (m : string)
    (drivers : list (string * pyval)) (salary : R) (a b c d e : R) :
  eaf_loop fs 1.0 drivers = PyOk e ->
  dict_get COCOMO_PARAMS m = Some (a, b, c, d) ->
  0 < a -> 0 < c -> 0 < kloc0 -> 0 < e ->
  let E := a * Rpower kloc0 b * e in
  let D := c * Rpower E d in
  calculate_cocomo fs kloc0 (Some m) drivers salary =
  PyOk (Some (CocomoResults (round_to E 2) (round_to D 2) (round_to (E / D) 2)
                (round_to (E * salary) 0) (round_to e 3) kloc0 (capitalize m)), None).
Proof.
  intros He Hm Ha Hc Hk Hpos E D.
  unfold calculate_cocomo. rewrite He. cbn [py_bind mode_params]. rewrite Hm.
  rewrite (num_pow_pos kloc0 b Hk). cbn [py_bind num_mul].
  assert (HE : 0 < E) by (unfold E; pose proof (Rpower_pos kloc0 b); apply Rmult_lt_0_compat; [apply Rmult_lt_0_compat|]; lra).
  fold E. rewrite (num_pow_pos E d HE). cbn [py_bind num_mul].
  assert (HD : 0 < D) by (unfold D; pose proof (Rpower_pos E d); apply Rmult_lt_0_compat; lra).
  fold D. rewrite (num_div_float E D) by lra. reflexivity.
Qed.

End Eval.

(** * Facts about the constant tables *)

Module Tables.

Lemma mode_params_spec (m : string) (a b c d : R) :
  mode_params (Some m) = Some (a, b, c, d) ->
  (m = "organic" /\ (a, b, c, d) = (2.4, 1.05, 2.5, 0.38)) \/
  (m = "semidetached" /\ (a, b, c, d) = (3.0, 1.12, 2.5, 0.35)) \/
  (m = "embedded" /\ (a, b, c, d) = (3.6, 1.20, 2.5, 0.32)).
Proof.
  unfold mode_params, COCOMO_PARAMS. simpl.
  destruct (String.eqb m "organic") eqn:E1;
  [intros H; inversion H; left; split; [apply String.eqb_eq; exact E1 | reflexivity] |].
  destruct (String.eqb m "semidetached") eqn:E2;
  [intros H; inversion H; right; left; split; [apply String.eqb_eq; exact E2 | reflexivity] |].
  destruct (String.eqb m "embedded") eqn:E3;
  [intros H; inversion H; right; right; split; [apply String.eqb_eq; exact E3 | reflexivity] |].
  discriminate.
Qed.





End Tables.

Module Concrete.


Lemma round_to_near (r : R) (n : nat) (k : Z) :
  IZR k - 1 / 2 < r * 10 ^ n < IZR k + 1 / 2 -> round_to r n = IZR k / 10 ^ n.
Proof. intros H. unfold round_to. rewrite (Num.round_half_even_near _ k H). reflexivity. Qed.

End Concrete.

Module Eval2.





End Eval2.

Module Eval3.



End Eval3.

(** * Numeric bounds on [Rpower] at the inputs used below *)

Module Bounds.

Lemma frac_pow (p q : Z) (n : nat) :
  (IZR p / IZR q) ^ n = IZR (p ^ Z.of_nat n) / IZR (q ^ Z.of_nat n).
Proof. unfold Rdiv. rewrite Rpow_mult_distr, pow_inv, !pow_IZR. reflexivity. Qed.

Lemma frac_lt (p q r s : Z) :
  (0 < q)%Z -> (0 < s)%Z -> (p * s < r * q)%Z -> IZR p / IZR q < IZR r / IZR s.
Proof.
  intros Hq Hs H. apply IZR_lt in Hq, Hs, H. rewrite !mult_IZR in H.
  apply (Rmult_lt_reg_r (IZR q * IZR s)); [nra |].
  replace (IZR p / IZR q * (IZR q * IZR s)) with (IZR p * IZR s) by (field; lra).
  replace (IZR r / IZR s * (IZR q * IZR s)) with (IZR r * IZR q) by (field; lra).
  exact H.
Qed.

Lemma Rpower_rat_pow (x : R) (p q : nat) :
  0 < x -> (0 < q)%nat -> Rpower x (INR p / INR q) ^ q = x ^ p.
Proof.
  intros Hx Hq. rewrite <- (Rpower_pow q) by apply Eval.Rpower_pos.
  rewrite Rpower_mult.
  replace (INR p / INR q * INR q) with (INR p) by (field; apply not_0_INR; lia).
  apply Rpower_pow; exact Hx.
Qed.


Lemma Rpower_rat_upper (x u : R) (p q : nat) :
  0 < x -> (0 < q)%nat -> 0 < u -> x ^ p < u ^ q -> Rpower x (INR p / INR q) < u.
Proof.
  intros Hx Hq Hu H.
  destruct (Rlt_or_le (Rpower x (INR p / INR q)) u) as [L | L]; [exact L |].
  exfalso.
  pose proof (pow_incr u (Rpower x (INR p / INR q)) q (conj (Rlt_le _ _ Hu) L)) as P.
  rewrite Rpower_rat_pow in P by assumption. lra.
Qed.

Lemma Rpower_le_self (x y : R) : 0 < x < 1 -> 1 <= y -> Rpower x y <= x.
Proof.
  intros Hx Hy. unfold Rpower. rewrite <- (exp_ln x) at 2 by lra.
  assert (Hl : ln x < 0) by (rewrite <- ln_1; apply ln_increasing; lra).
  destruct (Req_dec_T y 1) as [-> | Hne]; [rewrite Rmult_1_l; lra |].
  left. apply exp_increasing. nra.
Qed.


(** A tiny positive effort has a tiny duration factor. *)
Lemma tiny_duration_factor (E : R) :
  0 < E <= 1 / 1000000000 -> Rpower E 0.38 < 1 / 1000.
Proof.
  intros HE. eapply Rle_lt_trans.
  { apply Rle_Rpower_l; [lra | exact HE]. }
  replace 0.38 with (INR 19 / INR 50) by (rewrite !INR_IZR_INZ; simpl; lra).
  replace (1 / 1000000000) with (IZR 1 / IZR 1000000000) by lra.
  replace (1 / 1000) with (IZR 1 / IZR 1000) by lra.
  apply Rpower_rat_upper; [lra | lia | lra |].
  rewrite !frac_pow. apply frac_lt; [vm_compute; reflexivity .. |].
  vm_compute. reflexivity.
Qed.

(** Organic mode at a size of at most [2e-12] KLOC and EAF [1.0]: effort and
    duration both round to [0.00]. *)
Lemma tiny_organic_rounds_to_zero (k : R) :
  0 < k <= 2 / 10 ^ 12 ->
  let E := 2.4 * Rpower k 1.05 * 1.0 in
  0 < E /\ round_to E 2 = 0 /\ round_to (2.5 * Rpower E 0.38) 2 = 0.
Proof.
  intros Hk E.
  assert (Hs : 10 ^ 12 = 1000000000000) by (simpl; lra).
  rewrite Hs in Hk.
  pose proof (Rpower_le_self k 1.05 ltac:(lra) ltac:(lra)) as Hle.
  pose proof (Eval.Rpower_pos k 1.05) as Hp.
  assert (HE : 0 < E <= 1 / 1000000000) by (unfold E; lra).
  pose proof (tiny_duration_factor E HE) as HD.
  pose proof (Eval.Rpower_pos E 0.38) as HDp.
  split; [lra |]. split.
  - rewrite (Concrete.round_to_near _ 2 0) by (simpl; lra). simpl. lra.
  - rewrite (Concrete.round_to_near _ 2 0) by (simpl; lra). simpl. lra.
Qed.

End Bounds.

(** * The request handler *)

Module Handler.


(** A form submitted with a size of [1e-12] KLOC and nominal drivers. *)
Definition rq_tiny : request :=
  Request POST [("kloc", "0.000000000001"); ("salary", "8000"); ("mode", "organic");
                ("RELY", "1.00"); ("DATA", "1.00"); ("CPLX", "1.00");
                ("TOOL", "1.00"); ("VIRT", "1.00")].

(** The size passes the handler's guard and the engine returns a result
    whose effort and duration are both [0.0] after rounding. *)
Lemma rq_tiny_results :
  exists r, index_state decimal_float rq_tiny = (Some r, None) /\
            effort_pm r = 0 /\ duration_months r = 0.
Proof.
  assert (Htry : index_try decimal_float rq_tiny =
    calculate_cocomo decimal_float (1 * IZR 1 / 10 ^ 12) (Some "organic")
      [("RELY", VStr "1.00"); ("DATA", VStr "1.00"); ("CPLX", VStr "1.00");
       ("TOOL", VStr "1.00"); ("VIRT", VStr "1.00")] (1 * IZR 8000 / 10 ^ 0)).
  { unfold index_try.
    assert (H1 : form_get rq_tiny "kloc" = VStr "0.000000000001") by reflexivity.
    assert (H2 : form_get rq_tiny "salary" = VStr "8000") by reflexivity.
    assert (H3 : form_get rq_tiny "mode" = VStr "organic") by reflexivity.
    assert (H4 : decimal_float "0.000000000001" = Some (1 * IZR 1 / 10 ^ 12)) by reflexivity.
    assert (H5 : decimal_float "8000" = Some (1 * IZR 8000 / 10 ^ 0)) by reflexivity.
    assert (H6 : map (fun '(key, _) => (key, form_get rq_tiny key)) COST_DRIVERS_DATA =
      [("RELY", VStr "1.00"); ("DATA", VStr "1.00"); ("CPLX", VStr "1.00");
       ("TOOL", VStr "1.00"); ("VIRT", VStr "1.00")]) by reflexivity.
    rewrite H1, H2, H3, H6. unfold py_float. rewrite H4, H5. cbn [py_bind].
    destruct (Rle_dec (1 * IZR 1 / 10 ^ 12) 0) as [L |]; [simpl in L; lra |].
    destruct (Rle_dec (1 * IZR 8000 / 10 ^ 0) 0) as [L |]; [simpl in L; lra |].
    reflexivity. }
  set (x := 1 * IZR 100 / 10 ^ 2).
  set (k := 1 * IZR 1 / 10 ^ 12).
  assert (Hx : x = 1) by (unfold x; simpl; lra).
  assert (Hk : 0 < k <= 2 / 10 ^ 12) by (unfold k; simpl; lra).
  destruct (Bounds.tiny_organic_rounds_to_zero k Hk) as (HE & Heff & Hdur).
  rewrite (Eval.calculate_cocomo_ok decimal_float k "organic" _ _ 2.4 1.05 2.5 0.38
             (1.0 * x * x * x * x * x)) in Htry;
    [| reflexivity | reflexivity | lra | lra | lra | rewrite Hx; lra].
  replace (1.0 * x * x * x * x * x) with 1.0 in Htry by (rewrite Hx; lra).
  eexists. unfold index_state. simpl req_method. rewrite Htry.
  split; [reflexivity |]. simpl. split; assumption.
Qed.

(** Rendering that result divides by [total = 0.0 + 0.0]: the handler
    raises [ZeroDivisionError] outside its [try] block. *)
Lemma rq_tiny_render_raises :
  index decimal_float rq_tiny = raise ZeroDivisionError "float division by zero".
Proof.
  destruct rq_tiny_results as (r & Hst & He & Hd).
  unfold index. rewrite Hst. unfold render_template.
  rewrite He, Hd. replace (0 + 0) with 0 by ring.
  rewrite Eval.num_div_by_zero. reflexivity.
Qed.

End Handler.

(** * The claims *)

Module Claims.

Import Concrete.















(** C5: omitting a driver key gives the same outcome as selecting its
    nominal multiplier [1.00] explicitly, at any position of the dict. *)
Theorem C5_missing_driver_is_nominal (fs : string -> option R) (kloc0 : R)
    (mode0 : option string) (ds1 ds2 : list (string * pyval)) (key : string) (salary : R) :
  calculate_cocomo fs kloc0 mode0 (ds1 ++ ds2) salary =
  calculate_cocomo fs kloc0 mode0 (ds1 ++ (key, VFloat 1.00) :: ds2) salary.
Proof.
  unfold calculate_cocomo. rewrite !Eval.eaf_loop_app.
  destruct (eaf_loop fs 1.0 ds1) as [p1 |]; cbn [py_bind]; [| reflexivity].
  simpl eaf_loop at 2. cbn [py_bind].
  replace (p1 * 1.00) with p1 by lra. reflexivity.
Qed.
















End Claims.

(** * Further properties of the engine, the handler and the template *)

Module More.

(** The two form-derived arguments [index] passes to the engine. *)
Definition form_mode (rq : request) : option string :=
  match form_get rq "mode" with VStr s => Some s | _ => None end.

Definition form_drivers (rq : request) : list (string * pyval) :=
  map (fun '(key, _) => (key, form_get rq key)) COST_DRIVERS_DATA.






(** [float(value)] raises only [ValueError] or [TypeError]. *)
Lemma py_float_raise_kind (fs : string -> option R) (v : pyval) (e : exc) :
  py_float fs v = PyRaise e -> exc_kind_of e = ValueError \/ exc_kind_of e = TypeError.
Proof.
  destruct v as [| s | r]; simpl; [intros H; inversion H; auto | | discriminate].
  destruct (fs s); [discriminate | intros H; inversion H; auto].
Qed.

Lemma eaf_loop_raise_kind (fs : string -> option R) (acc : R) (ds : list (string * pyval)) (e : exc) :
  eaf_loop fs acc ds = PyRaise e -> exc_kind_of e = ValueError \/ exc_kind_of e = TypeError.
Proof.
  revert acc. induction ds as [| [k v] rest IH]; intros acc; simpl; [discriminate |].
  destruct (py_float fs v) as [f | e'] eqn:E; cbn [py_bind]; [apply IH |].
  intros H. inversion H; subst. eapply py_float_raise_kind; eauto.
Qed.

Lemma eaf_loop_fails (fs : string -> option R) (acc : R) (ds : list (string * pyval)) :
  (exists k v e, In (k, v) ds /\ py_float fs v = PyRaise e) ->
  exists e, eaf_loop fs acc ds = PyRaise e.
Proof.
  revert acc. induction ds as [| [k v] rest IH]; intros acc (k' & v' & e & Hin & Hv);
    [destruct Hin |].
  cbn [eaf_loop]. destruct Hin as [Heq | Hin].
  - inversion Heq; subst. rewrite Hv. cbn [py_bind]. eauto.
  - destruct (py_float fs v); cbn [py_bind]; [| eauto]. apply IH. eauto.
Qed.


Lemma calculate_cocomo_eaf_raise (fs : string -> option R) (kloc0 : R) (mode0 : option string)
    (ds : list (string * pyval)) (salary : R) (e : exc) :
  eaf_loop fs 1.0 ds = PyRaise e -> calculate_cocomo fs kloc0 mode0 ds salary = PyRaise e.
Proof. intros H. unfold calculate_cocomo. rewrite H. reflexivity. Qed.

Lemma fold_left_Rmult_acc (l : list R) (acc : R) :
  fold_left Rmult l acc = acc * fold_right Rmult 1 l.
Proof.
  revert acc. induction l as [| x l IH]; intros acc; simpl; [ring |].
  rewrite IH. ring.
Qed.

Lemma fold_right_Rmult_perm (l l' : list R) :
  Permutation l l' -> fold_right Rmult 1 l = fold_right Rmult 1 l'.
Proof. induction 1; simpl; try ring; congruence. Qed.

(** Every catalog multiplier lies in [[0.70, 1.65]]. *)
Lemma catalog_level_range (key : string) (r : R) : catalog_level key r -> 0.70 <= r <= 1.65.
Proof.
  intros [d [Hd [lvl Hin]]]. unfold COST_DRIVERS_DATA in Hd. simpl in Hd.
  repeat match type of Hd with
         | context [String.eqb key ?k] => destruct (String.eqb key k)
         end;
  inversion Hd; subst; simpl in Hin;
  repeat (destruct Hin as [Hin | Hin]; [inversion Hin; lra |]); contradiction.
Qed.


(** The handler reaches the engine once both magnitudes convert and pass. *)
Lemma index_try_engine (fs : string -> option R) (rq : request) (k s : R) :
  py_float fs (form_get rq "kloc") = PyOk k ->
  py_float fs (form_get rq "salary") = PyOk s ->
  0 < k -> 0 < s ->
  index_try fs rq = calculate_cocomo fs k (form_mode rq) (form_drivers rq) s.
Proof.
  intros Hk Hs Hk0 Hs0. unfold index_try. rewrite Hk, Hs. cbn [py_bind].
  destruct (Rle_dec k 0); [lra |]. destruct (Rle_dec s 0); [lra |]. reflexivity.
Qed.

(** [float(request.form.get(key))] raises: the field is missing or does
    not parse. *)
Definition field_unusable (fs : string -> option R) (rq : request) (key : string) : Prop :=
  match form_get rq key with
  | VNone => True
  | VStr s => fs s = None
  | VFloat _ => False
  end.

Lemma field_unusable_raises (fs : string -> option R) (rq : request) (key : string) :
  field_unusable fs rq key -> exists e, py_float fs (form_get rq key) = PyRaise e.
Proof.
  unfold field_unusable. destruct (form_get rq key) as [| s | r]; intros H.
  - eexists. reflexivity.
  - simpl. rewrite H. eexists. reflexivity.
  - destruct H.
Qed.

Lemma eaf_loop_succeeds (fs : string -> option R) (ds : list (string * pyval)) :
  (forall k v, In (k, v) ds -> exists r, py_float fs v = PyOk r) ->
  forall acc, exists e, eaf_loop fs acc ds = PyOk e.
Proof.
  induction ds as [| [k v] rest IH]; intros H acc; simpl; [eauto |].
  destruct (H k v (or_introl eq_refl)) as [r Hr]. rewrite Hr. cbn [py_bind].
  apply IH. intros k' v' Hin. eapply H. right. exact Hin.
Qed.




Lemma form_drivers_in (rq : request) (key : string) :
  In key (map fst COST_DRIVERS_DATA) -> In (key, form_get rq key) (form_drivers rq).
Proof.
  intros H. apply in_map_iff in H as [[k d] [Hk Hin]]. simpl in Hk. subst k.
  unfold form_drivers. apply in_map_iff. exists (key, d). auto.
Qed.

Lemma form_drivers_keys (rq : request) (k : string) (v : pyval) :
  In (k, v) (form_drivers rq) -> In k (map fst COST_DRIVERS_DATA) /\ v = form_get rq k.
Proof.
  unfold form_drivers. intros H. apply in_map_iff in H as [[k' d] [Heq Hin]].
  inversion Heq; subst. split; [| reflexivity].
  apply in_map_iff. exists (k, d). auto.
Qed.

Lemma index_state_raise (fs : string -> option R) (rq : request) (e : exc) :
  req_method rq = POST -> index_try fs rq = PyRaise e ->
  exc_kind_of e = ValueError \/ exc_kind_of e = TypeError ->
  index_state fs rq = (None, Some "Please ensure all numerical fields are filled correctly.").
Proof.
  intros Hm Ht Hk. unfold index_state. rewrite Hm, Ht.
  destruct e as [[] msg]; simpl in Hk; destruct Hk as [Hk | Hk]; try discriminate; reflexivity.
Qed.

(** [COCOMO_PARAMS[mode]] fails for [None] and for every other key. *)
Lemma mode_params_unknown (mode0 : option string) :
  (forall m, mode0 = Some m -> m <> "organic" /\ m <> "semidetached" /\ m <> "embedded") ->
  mode_params mode0 = None.
Proof.
  destruct mode0 as [m |]; intros H; [| reflexivity].
  destruct (H m eq_refl) as (H1 & H2 & H3).
  unfold mode_params, COCOMO_PARAMS. cbn [dict_get].
  rewrite (proj2 (String.eqb_neq m _) H1), (proj2 (String.eqb_neq m _) H2),
    (proj2 (String.eqb_neq m _) H3).
  reflexivity.
Qed.




End More.

Module Extra.



(** X2: the driver loop runs before the mode lookup: a driver value that
    [float()] rejects makes the engine raise that [ValueError] or
    [TypeError], whatever the mode, also a missing or unknown one. *)
Theorem driver_error_before_mode (fs : string -> option R) (kloc0 : R)
    (mode0 : option string) (drivers : list (string * pyval)) (salary : R) :
  (exists k v e, In (k, v) drivers /\ py_float fs v = PyRaise e) ->
  exists e, calculate_cocomo fs kloc0 mode0 drivers salary = PyRaise e /\
            (exc_kind_of e = ValueError \/ exc_kind_of e = TypeError).
Proof.
  intros H. destruct (More.eaf_loop_fails fs 1.0 drivers H) as [e He].
  exists e. split; [apply More.calculate_cocomo_eaf_raise; exact He |].
  eapply More.eaf_loop_raise_kind. exact He.
Qed.

Lemma driver_error_before_mode_witness :
  exists e, calculate_cocomo decimal_float 10 None [("RELY", VNone)] 8000 = PyRaise e /\
            (exc_kind_of e = ValueError \/ exc_kind_of e = TypeError).
Proof.
  apply (driver_error_before_mode decimal_float 10 None [("RELY", VNone)] 8000).
  exists "RELY", VNone. eexists. split; [left; reflexivity | reflexivity].
Defined.

(** X3: once the drivers convert, a mode that is missing or not exactly one
    of the three keys (the lookup is case-sensitive) returns the
    unknown-mode message, whatever the size and salary, also non-positive
    ones. *)
Theorem unknown_mode_message (fs : string -> option R) (kloc0 : R) (mode0 : option string)
    (drivers : list (string * pyval)) (salary e : R) :
  eaf_loop fs 1.0 drivers = PyOk e ->
  (forall m, mode0 = Some m -> m <> "organic" /\ m <> "semidetached" /\ m <> "embedded") ->
  calculate_cocomo fs kloc0 mode0 drivers salary =
  PyOk (None, Some "Invalid project mode selected.").
Proof.
  intros He Hm. unfold calculate_cocomo. rewrite He. cbn [py_bind].
  rewrite (More.mode_params_unknown mode0 Hm). reflexivity.
Qed.

Lemma unknown_mode_message_witness :
  calculate_cocomo decimal_float (-5) (Some "Organic") [] 0 =
  PyOk (None, Some "Invalid project mode selected.").
Proof.
  apply (unknown_mode_message decimal_float (-5) (Some "Organic") [] 0 1.0); [reflexivity |].
  intros m H. inversion H. repeat split; discriminate.
Defined.

(** X4: a returned result echoes the size it was given and names the mode
    capitalised; only the three known modes produce one, and the error is
    then [None]. *)
Theorem result_echoes_inputs (fs : string -> option R) (kloc0 : R) (mode0 : option string)
    (drivers : list (string * pyval)) (salary : R) (r : cocomo_results) (err : option string) :
  calculate_cocomo fs kloc0 mode0 drivers salary = PyOk (Some r, err) ->
  err = None /\ kloc r = kloc0 /\
  ((mode0 = Some "organic" /\ mode r = "Organic") \/
   (mode0 = Some "semidetached" /\ mode r = "Semidetached") \/
   (mode0 = Some "embedded" /\ mode r = "Embedded")).
Proof.
  unfold calculate_cocomo. intros H.
  destruct (eaf_loop fs 1.0 drivers) as [e |]; cbn [py_bind] in H; [| discriminate H].
  destruct (mode_params mode0) as [[[[a b] c] d] |] eqn:Hp; [| discriminate H].
  repeat match type of H with
         | context [py_bind ?x _] => destruct x; cbn [py_bind] in H; [| discriminate H]
         end.
  inversion H; subst. destruct mode0 as [m |]; [| discriminate Hp].
  split; [reflexivity |]. split; [reflexivity |].
  destruct (Tables.mode_params_spec m a b c d Hp) as [[-> _] | [[-> _] | [-> _]]];
    [left | right; left | right; right]; split; reflexivity.
Qed.

Lemma result_echoes_inputs_witness :
  exists r,
    calculate_cocomo decimal_float 10 (Some "organic") [] 8000 = PyOk (Some r, None) /\
    @None string = None /\ kloc r = 10 /\
    ((Some "organic" = Some "organic" /\ mode r = "Organic") \/
     (Some "organic" = Some "semidetached" /\ mode r = "Semidetached") \/
     (Some "organic" = Some "embedded" /\ mode r = "Embedded")).
Proof.
  pose proof (Eval.calculate_cocomo_ok decimal_float 10 "organic" [] 8000 2.4 1.05 2.5 0.38 1.0
                eq_refl eq_refl ltac:(lra) ltac:(lra) ltac:(lra) ltac:(lra)) as H.
  cbv zeta in H. eexists. split; [exact H |].
  exact (result_echoes_inputs decimal_float 10 (Some "organic") [] 8000 _ None H).
Defined.











(** X10: a POST whose [kloc] or [salary] field is missing or does not
    parse ends in the numeric-fields message. *)
Theorem bad_magnitude_message (fs : string -> option R) (rq : request) :
  req_method rq = POST ->
  More.field_unusable fs rq "kloc" \/ More.field_unusable fs rq "salary" ->
  index_state fs rq = (None, Some "Please ensure all numerical fields are filled correctly.").
Proof.
  intros Hm Hbad.
  assert (H : exists e, index_try fs rq = PyRaise e /\
                        (exc_kind_of e = ValueError \/ exc_kind_of e = TypeError)).
  { unfold index_try.
    destruct Hbad as [Hb | Hb]; apply More.field_unusable_raises in Hb as [e He].
    - rewrite He. cbn [py_bind]. exists e.
      split; [reflexivity | eapply More.py_float_raise_kind; exact He].
    - destruct (py_float fs (form_get rq "kloc")) as [k | e'] eqn:Hk; cbn [py_bind].
      + rewrite He. cbn [py_bind]. exists e.
        split; [reflexivity | eapply More.py_float_raise_kind; exact He].
      + exists e'. split; [reflexivity | eapply More.py_float_raise_kind; exact Hk]. }
  destruct H as (e & Ht & Hk). exact (More.index_state_raise fs rq e Hm Ht Hk).
Qed.

Lemma bad_magnitude_message_witness :
  index_state decimal_float (Request POST [("kloc", "ten"); ("salary", "8000")]) =
  (None, Some "Please ensure all numerical fields are filled correctly.").
Proof.
  apply bad_magnitude_message; [reflexivity |]. left. reflexivity.
Defined.

(** X11: once [kloc] and [salary] pass the guard, a driver field that is
    missing or does not parse ends in the numeric-fields message, whatever
    the mode field holds. *)
Theorem bad_driver_message (fs : string -> option R) (rq : request) (k s : R) (key : string) :
  req_method rq = POST ->
  py_float fs (form_get rq "kloc") = PyOk k ->
  py_float fs (form_get rq "salary") = PyOk s ->
  0 < k -> 0 < s ->
  In key (map fst COST_DRIVERS_DATA) -> More.field_unusable fs rq key ->
  index_state fs rq = (None, Some "Please ensure all numerical fields are filled correctly.").
Proof.
  intros Hm Hk Hs Hk0 Hs0 Hkey Hbad.
  apply More.field_unusable_raises in Hbad as [e He].
  destruct (More.eaf_loop_fails fs 1.0 (More.form_drivers rq)) as [e' He'].
  { exists key, (form_get rq key), e.
    split; [apply More.form_drivers_in; exact Hkey | exact He]. }
  apply (More.index_state_raise fs rq e' Hm).
  - rewrite (More.index_try_engine fs rq k s Hk Hs Hk0 Hs0).
    apply More.calculate_cocomo_eaf_raise. exact He'.
  - eapply More.eaf_loop_raise_kind. exact He'.
Qed.

Lemma bad_driver_message_witness :
  index_state decimal_float
    (Request POST [("kloc", "10"); ("salary", "8000"); ("mode", "organic"); ("RELY", "high")]) =
  (None, Some "Please ensure all numerical fields are filled correctly.").
Proof.
  eapply (bad_driver_message decimal_float _ _ _ "RELY");
    [reflexivity | reflexivity | reflexivity | simpl; lra | simpl; lra | left; reflexivity |
     reflexivity].
Defined.

(** X12: a POST with positive [kloc] and [salary] and every driver field
    parsing, but with the mode field missing or not exactly one of the
    three keys, ends in the unknown-mode message. *)
Theorem bad_mode_message (fs : string -> option R) (rq : request) (k s : R) :
  req_method rq = POST ->
  py_float fs (form_get rq "kloc") = PyOk k ->
  py_float fs (form_get rq "salary") = PyOk s ->
  0 < k -> 0 < s ->
  (forall key, In key (map fst COST_DRIVERS_DATA) ->
     exists r, py_float fs (form_get rq key) = PyOk r) ->
  (forall m, form_get rq "mode" = VStr m ->
     m <> "organic" /\ m <> "semidetached" /\ m <> "embedded") ->
  index_state fs rq = (None, Some "Invalid project mode selected.").
Proof.
  intros Hm Hk Hs Hk0 Hs0 Hdrv Hmode.
  destruct (More.eaf_loop_succeeds fs (More.form_drivers rq)) with (acc := 1.0) as [e He].
  { intros key v Hin. apply More.form_drivers_keys in Hin as [Hin ->]. apply Hdrv. exact Hin. }
  assert (Hfm : forall m, More.form_mode rq = Some m ->
                  m <> "organic" /\ m <> "semidetached" /\ m <> "embedded").
  { unfold More.form_mode. intros m. destruct (form_get rq "mode") eqn:E; try discriminate.
    intros H. inversion H; subst. apply Hmode. reflexivity. }
  unfold index_state. rewrite Hm, (More.index_try_engine fs rq k s Hk Hs Hk0 Hs0).
  unfold calculate_cocomo. rewrite He. cbn [py_bind].
  rewrite (More.mode_params_unknown _ Hfm). reflexivity.
Qed.

Lemma bad_mode_message_witness :
  index_state decimal_float
    (Request POST [("kloc", "10"); ("salary", "8000"); ("mode", "Organic");
                   ("RELY", "1"); ("DATA", "1"); ("CPLX", "1"); ("TOOL", "1"); ("VIRT", "1")]) =
  (None, Some "Invalid project mode selected.").
Proof.
  eapply (bad_mode_message decimal_float);
    [reflexivity | reflexivity | reflexivity | simpl; lra | simpl; lra | |].
  - intros key Hin. simpl in Hin.
    destruct Hin as [<- | [<- | [<- | [<- | [<- | []]]]]]; eexists; reflexivity.
  - intros m H. inversion H. repeat split; discriminate.
Defined.


(** X14: every driver of the catalog has default [1.00], which is its
    nominal level [N], and all its multipliers lie in [[0.70, 1.65]]. *)
Theorem catalog_defaults_nominal (key : string) (d : cost_driver) :
  dict_get COST_DRIVERS_DATA key = Some d ->
  cd_default d = 1.00 /\ dict_get (cd_levels d) "N" = Some (cd_default d) /\
  (forall lvl r, In (lvl, r) (cd_levels d) -> 0.70 <= r <= 1.65).
Proof.
  intros Hd. split; [| split].
  - revert Hd. unfold COST_DRIVERS_DATA. cbn [dict_get].
    repeat match goal with
           | |- context [String.eqb key ?k] => destruct (String.eqb key k)
           end; intros H; inversion H; reflexivity.
  - revert Hd. unfold COST_DRIVERS_DATA. cbn [dict_get].
    repeat match goal with
           | |- context [String.eqb key ?k] => destruct (String.eqb key k)
           end; intros H; inversion H; reflexivity.
  - intros lvl r Hin. apply (More.catalog_level_range key r).
    exists d. split; [exact Hd | exists lvl; exact Hin].
Qed.

Lemma catalog_defaults_nominal_witness :
  cd_default (CostDriver "Use of Software Tools"
      [("VL", 1.24); ("L", 1.10); ("N", 1.00); ("H", 0.91); ("VH", 0.82)] 1.00) = 1.00 /\
  dict_get (cd_levels (CostDriver "Use of Software Tools"
      [("VL", 1.24); ("L", 1.10); ("N", 1.00); ("H", 0.91); ("VH", 0.82)] 1.00)) "N" =
    Some 1.00 /\
  (forall lvl r, In (lvl, r) [("VL", 1.24); ("L", 1.10); ("N", 1.00); ("H", 0.91); ("VH", 0.82)] ->
     0.70 <= r <= 1.65).
Proof.
  apply (catalog_defaults_nominal "TOOL"). reflexivity.
Defined.











End Extra.
